(** * The file-manager page (src/app/page.tsx)

    A shallow embedding of the state and of the four request handlers of
    [FileManagerPage]: [fetchFiles], [handleUpload], [handleDownload] and
    [handleDelete].  The React state slots become one record, every call
    that leaves the component (fetch, the response body readers, the DOM
    and URL calls, console.error) becomes a node of a small resumption
    monad whose reply is chosen by the environment, and try / catch /
    finally are combinators over that monad.  A JavaScript number is an
    IEEE 754 binary64 value, here a primitive [float]. *)

From stdpp Require Import list strings.
From Stdlib Require Import ZArith Floats Uint63 DecimalString.

Local Open Scope Z_scope.

(** ** Data model *)

(** [type FileRecord], lines 6-13.  Optional fields are [option]s. *)
Module FileRecord.
Record t : Type := mk {
  id : string;
  fileName : string;
  size : float;
  uploadedAt : string;
  contentType : option string;
  description : option string
}.
End FileRecord.

(** The browser's [File] handle kept in [selectedFile]. *)
Module File.
Record t : Type := mk {
  name : string;
  size : float;
  type : string
}.
End File.

(** The eight [useState] slots of the component, lines 33-40. *)
Record State : Type := mkState {
  files : list FileRecord.t;
  isLoading : bool;
  isUploading : bool;
  errorMessage : option string;
  selectedFile : option File.t;
  description : string;
  activeDownloadId : option string;
  deletingId : option string
}.

(** Initial values of the slots. *)
Definition initialState : State :=
  mkState [] true false None None "" None None.

(** The state setters returned by [useState]. *)
Definition setFiles (update : list FileRecord.t -> list FileRecord.t) (s : State) : State :=
  mkState (update (files s)) (isLoading s) (isUploading s) (errorMessage s)
          (selectedFile s) (description s) (activeDownloadId s) (deletingId s).

Definition setIsLoading (v : bool) (s : State) : State :=
  mkState (files s) v (isUploading s) (errorMessage s)
          (selectedFile s) (description s) (activeDownloadId s) (deletingId s).

Definition setIsUploading (v : bool) (s : State) : State :=
  mkState (files s) (isLoading s) v (errorMessage s)
          (selectedFile s) (description s) (activeDownloadId s) (deletingId s).

Definition setErrorMessage (v : option string) (s : State) : State :=
  mkState (files s) (isLoading s) (isUploading s) v
          (selectedFile s) (description s) (activeDownloadId s) (deletingId s).

Definition setSelectedFile (v : option File.t) (s : State) : State :=
  mkState (files s) (isLoading s) (isUploading s) (errorMessage s)
          v (description s) (activeDownloadId s) (deletingId s).

Definition setDescription (v : string) (s : State) : State :=
  mkState (files s) (isLoading s) (isUploading s) (errorMessage s)
          (selectedFile s) v (activeDownloadId s) (deletingId s).

Definition setActiveDownloadId (v : option string) (s : State) : State :=
  mkState (files s) (isLoading s) (isUploading s) (errorMessage s)
          (selectedFile s) (description s) v (deletingId s).

Definition setDeletingId (v : option string) (s : State) : State :=
  mkState (files s) (isLoading s) (isUploading s) (errorMessage s)
          (selectedFile s) (description s) (activeDownloadId s) v.

(** ** Numbers: the built-ins [formatFileSize] calls

    ECMA-262 fixes [Math.floor] and [Number.prototype.toFixed] exactly,
    and leaves [Math.log] to the engine, recommending fdlibm's
    algorithms; V8 and SpiderMonkey ship fdlibm's [__ieee754_log].  The
    function below follows it branch by branch with the same binary64
    operations and constants; the exponent and the significand, which
    fdlibm reads from the bit pattern, are read with [frexp]. *)

Definition number_of_Z (z : Z) : float :=
  if z <? 0 then (- of_uint63 (Uint63.of_Z (- z)))%float
  else of_uint63 (Uint63.of_Z z).

Definition ln2_hi : float := 0x1.62e42fee00000p-1%float.
Definition ln2_lo : float := 0x1.a39ef35793c76p-33%float.
Definition Lg1 : float := 0x1.5555555555593p-1%float.
Definition Lg2 : float := 0x1.999999997fa04p-2%float.
Definition Lg3 : float := 0x1.2492494229359p-2%float.
Definition Lg4 : float := 0x1.c71c51d8e78afp-3%float.
Definition Lg5 : float := 0x1.7466496cb03dep-3%float.
Definition Lg6 : float := 0x1.39a09d078c69fp-3%float.
Definition Lg7 : float := 0x1.2f112df3e5244p-3%float.

(** [Math.log].  [x = r * 2^e] with [1/2 <= r < 1]; [hx] is the high word
    of the significand, [k] the exponent after [x] is normalised into
    [sqrt(2)/2, sqrt(2)), and [f = x - 1]. *)
Definition Math_log (x : float) : float :=
  if (x <? 0)%float then nan
  else if is_nan x then nan
  else if (x =? 0)%float then neg_infinity
  else if (x =? infinity)%float then infinity
  else
    let (r, e) := Z.frexp x in
    let hx := Z.shiftr (Uint63.to_Z (normfr_mantissa r) - 2 ^ 52) 32 in
    let i := Z.land (hx + 0x95f64) 0x100000 in
    let k := e - 1 + Z.shiftr i 20 in
    let x := if i =? 0 then (r * 2)%float else r in
    let f := (x - 1)%float in
    let dk := number_of_Z k in
    if Z.land 0xfffff (2 + hx) <? 3 then
      if (f =? 0)%float then
        if k =? 0 then 0%float else (dk * ln2_hi + dk * ln2_lo)%float
      else
        let R := (f * f * (0x1p-1 - 0x1.5555555555555p-2 * f))%float in
        if k =? 0 then (f - R)%float
        else (dk * ln2_hi - ((R - dk * ln2_lo) - f))%float
    else
      let s := (f / (2 + f))%float in
      let z := (s * s)%float in
      let w := (z * z)%float in
      let t1 := (w * (Lg2 + w * (Lg4 + w * Lg6)))%float in
      let t2 := (z * (Lg1 + w * (Lg3 + w * (Lg5 + w * Lg7))))%float in
      let R := (t2 + t1)%float in
      if 0 <? Z.lor (hx - 0x6147a) (0x6b851 - hx) then
        let hfsq := (0x1p-1 * f * f)%float in
        if k =? 0 then (f - (hfsq - s * (hfsq + R)))%float
        else (dk * ln2_hi - ((hfsq - (s * (hfsq + R) + dk * ln2_lo)) - f))%float
      else
        if k =? 0 then (f - s * (f - R))%float
        else (dk * ln2_hi - ((s * (f - R) - dk * ln2_lo) - f))%float.

(** The value of [Math.floor]: an integer, or NaN or an infinity passed
    through (a zero of either sign is the integer 0). *)
Inductive Integral : Type :=
| IntNaN
| IntInfinity (negative : bool)
| Int (z : Z).

Definition Math_floor (x : float) : Integral :=
  match Prim2SF x with
  | S754_nan => IntNaN
  | S754_infinity s => IntInfinity s
  | S754_zero _ => Int 0
  | S754_finite s m e =>
      let v := if s then Z.neg m else Z.pos m in
      Int (if 0 <=? e then Z.shiftl v e else Z.shiftr v (- e))
  end.

(** [1024 ** index] for an index that [Math.floor] returned. *)
Definition pow1024 (index : Integral) : float :=
  match index with
  | IntNaN => nan
  | IntInfinity false => infinity
  | IntInfinity true => 0%float
  | Int z => Z.ldexp 1%float (10 * z)
  end.

(** [array[index]]: an own element for an integer within the array, and
    undefined anywhere else. *)
Definition element {A} (array : list A) (index : Integral) : option A :=
  match index with
  | Int z => if 0 <=? z then array !! Z.to_nat z else None
  | IntNaN | IntInfinity _ => None
  end.

(** A value interpolated in a template literal. *)
Definition interpolate (v : option string) : string :=
  match v with
  | Some s => s
  | None => "undefined"
  end.

Definition decimal (n : Z) : string :=
  NilZero.string_of_uint (N.to_uint (Z.to_N n)).

Fixpoint zeros (n : nat) : string :=
  match n with
  | O => ""
  | S n => "0" +:+ zeros n
  end.

(** The digits of [n / 10^fractionDigits] in fixed-point notation. *)
Definition fixed_point (fractionDigits : nat) (n : Z) : string :=
  let m := decimal n in
  let m := zeros (S fractionDigits - String.length m) +:+ m in
  let k := String.length m in
  match fractionDigits with
  | O => m
  | _ => String.substring 0 (k - fractionDigits) m +:+ "." +:+
         String.substring (k - fractionDigits) fractionDigits m
  end.

(** [Number::toString] on a finite double of at least 10^21, the branch
    [toFixed] defers to: the shortest decimal [s * 10^(n-k)] with [k]
    digits that reads back as the double [m * 2^e], in exponent form. *)
Definition reads_back (m : positive) (e : Z) (y : Z) : bool :=
  match binary_normalize prec emax y 0 false with
  | S754_finite _ m' e' => (Z.pos m' =? Z.pos m) && (e' =? e)
  | _ => false
  end.

Definition candidates (m : positive) (e : Z) (k : Z) : list (Z * Z) :=
  let X := Z.shiftl (Z.pos m) e in
  let D := Z.of_nat (String.length (decimal X)) in
  filter (fun '(s, n) => Is_true ((10 ^ (k - 1) <=? s) && (s <? 10 ^ k) &&
                                  reads_back m e (s * 10 ^ (n - k))))
    (n ← [D; D + 1]; [(X / 10 ^ (n - k), n); (X / 10 ^ (n - k) + 1, n)]).

Definition closest (X : Z) (k : Z) (c : list (Z * Z)) : option (Z * Z) :=
  foldr (fun '(s, n) best =>
           match best with
           | Some (s', n') =>
               if Z.abs (s * 10 ^ (n - k) - X) <=? Z.abs (s' * 10 ^ (n' - k) - X)
               then Some (s, n) else best
           | None => Some (s, n)
           end) None c.

Fixpoint shortest (m : positive) (e : Z) (k : Z) (digits : nat) : option (Z * Z * Z) :=
  match digits with
  | O => None
  | S digits =>
      match closest (Z.shiftl (Z.pos m) e) k (candidates m e k) with
      | Some (s, n) => Some (s, n, k)
      | None => shortest m e (k + 1) digits
      end
  end.

Definition exponential (m : positive) (e : Z) : string :=
  match shortest m e 1 17 with
  | Some (s, n, k) =>
      let d := decimal s in
      (if k =? 1 then d
       else String.substring 0 1 d +:+ "." +:+ String.substring 1 (Z.to_nat k - 1) d)
      +:+ "e+" +:+ decimal (n - 1)
  | None => ""
  end.

(** [Number.prototype.toFixed]: below 10^21 the integer [n] nearest to
    [x * 10^fractionDigits], the larger one on a tie, in fixed-point
    notation. *)
Definition toFixed (fractionDigits : nat) (x : float) : string :=
  match Prim2SF x with
  | S754_nan => "NaN"
  | S754_infinity s => if s then "-Infinity" else "Infinity"
  | S754_zero _ => fixed_point fractionDigits 0
  | S754_finite s m e =>
      (if s then "-" else "") +:+
      (if (0 <=? e) && (10 ^ 21 <=? Z.shiftl (Z.pos m) e) then exponential m e
       else
         let scaled := Z.pos m * 10 ^ Z.of_nat fractionDigits in
         let n := if 0 <=? e then Z.shiftl scaled e
                  else Z.shiftr (2 * scaled + Z.shiftl 1 (- e)) (- e + 1) in
         fixed_point fractionDigits n)
  end.

(** ** [formatFileSize], lines 15-21 *)

Definition units : list string := ["B"; "KB"; "MB"; "GB"; "TB"].

(** Line 18: [Math.floor(Math.log(sizeInBytes) / Math.log(1024))]. *)
Definition unitIndex (sizeInBytes : float) : Integral :=
  Math_floor (Math_log sizeInBytes / Math_log 1024)%float.

Definition formatFileSize (sizeInBytes : float) : string :=
  if (sizeInBytes =? 0)%float then "0 B"
  else
    let index := unitIndex sizeInBytes in
    let size := (sizeInBytes / pow1024 index)%float in
    toFixed 1 size +:+ " " +:+ interpolate (element units index).

(** ** What crosses the component boundary *)

(** A thrown JavaScript value: an [Error] instance with its [message], or
    any other value (the handlers only test [instanceof Error]). *)
Inductive JsThrown : Type :=
| JsError (message : string)
| JsOther (value : string).

(** A call that may complete normally or abruptly. *)
Inductive Completion (A : Type) : Type :=
| Normal (a : A)
| Abrupt (e : JsThrown).
Arguments Normal {A} a.
Arguments Abrupt {A} e.

Inductive Method : Type := GET | POST | DELETE.

(** One entry of a [FormData] body. *)
Inductive FormValue : Type :=
| FormFile (f : File.t)
| FormText (s : string).

Record Request : Type := mkRequest {
  url : string;
  method : Method;
  cache : option string;
  body : option (list (string * FormValue))
}.

(** A [Response]: [ok] is the Fetch API's getter, true on 200..299. *)
Record Response : Type := mkResponse { status : Z }.

Definition ok (r : Response) : bool :=
  (200 <=? status r) && (status r <=? 299).

(** The decoded body of the listing response, at the shapes the slot type
    [FileRecord[]] admits: a bare array, a wrapper exposing [files], or
    JSON [null] (on which a property read throws). *)
Inductive Payload : Type :=
| PayloadNull
| PayloadArray (records : list FileRecord.t)
| PayloadWrapper (records : list FileRecord.t).

Record Blob : Type := mkBlob { bytes : list Z }.

(** The anchor element built by [handleDownload]. *)
Record Anchor : Type := mkAnchor { href : string; download : string }.

(** The calls the handlers make, indexed by the type of their reply. *)
Inductive Call : Type -> Type :=
| fetch (req : Request) : Call (Completion Response)
| response_json (r : Response) : Call (Completion Payload)
| response_blob (r : Response) : Call (Completion Blob)
| createObjectURL (b : Blob) : Call (Completion string)
| appendChild (link : Anchor) : Call (Completion unit)
| click (link : Anchor) : Call (Completion unit)
| removeChild (link : Anchor) : Call (Completion unit)
| revokeObjectURL (u : string) : Call unit
| preventDefault : Call unit
| console_error (e : JsThrown) : Call unit.

(** The calls whose result is awaited: the handler is suspended there. *)
Definition awaited {T} (c : Call T) : bool :=
  match c with
  | fetch _ | response_json _ | response_blob _ => true
  | _ => false
  end.

(** The environment (backend and browser): it answers every call. *)
Definition Env : Type := forall T, Call T -> T.

Inductive Event : Type :=
| Occurred {T} (c : Call T) (reply : T).

(** The component state together with the log of calls made so far. *)
Record Sys : Type := mkSys { ui : State; trace : list Event }.

(** ** The handler monad *)

Inductive Async (A : Type) : Type :=
| Return (a : A)
| Throw (e : JsThrown)
| SetState (f : State -> State) (k : Async A)
| Perform {T} (c : Call T) (k : T -> Async A).
Arguments Return {A} a.
Arguments Throw {A} e.
Arguments SetState {A} f k.
Arguments Perform {A T} c k.

Fixpoint bind {A B} (m : Async A) (f : A -> Async B) : Async B :=
  match m with
  | Return a => f a
  | Throw e => Throw e
  | SetState g k => SetState g (bind k f)
  | Perform c k => Perform c (fun r => bind (k r) f)
  end.

Global Instance Async_ret : MRet Async := fun _ a => Return a.
Global Instance Async_bind : MBind Async := fun _ _ f m => bind m f.

(** A state setter call, a call that cannot throw, and one that can. *)
Definition set (f : State -> State) : Async unit := SetState f (Return tt).

Definition call {T} (c : Call T) : Async T := Perform c Return.

Definition attempt {A} (c : Call (Completion A)) : Async A :=
  Perform c (fun r => match r with Normal a => Return a | Abrupt e => Throw e end).

(** [try { body } catch (error) { handler error }] *)
Fixpoint try_catch {A} (body : Async A) (handler : JsThrown -> Async A) : Async A :=
  match body with
  | Return a => Return a
  | Throw e => handler e
  | SetState f k => SetState f (try_catch k handler)
  | Perform c k => Perform c (fun r => try_catch (k r) handler)
  end.

(** [try { body } finally { cleanup }]: the cleanup runs on both exits and
    the body's completion is kept unless the cleanup itself throws. *)
Fixpoint try_finally {A} (body : Async A) (cleanup : Async unit) : Async A :=
  match body with
  | Return a => bind cleanup (fun _ => Return a)
  | Throw e => bind cleanup (fun _ => Throw e)
  | SetState f k => SetState f (try_finally k cleanup)
  | Perform c k => Perform c (fun r => try_finally (k r) cleanup)
  end.

Definition try_catch_finally {A} (body : Async A) (handler : JsThrown -> Async A)
    (cleanup : Async unit) : Async A :=
  try_finally (try_catch body handler) cleanup.

(** Running a handler to completion against an environment. *)
Fixpoint run {A} (env : Env) (m : Async A) (s : Sys) : Completion A * Sys :=
  match m with
  | Return a => (Normal a, s)
  | Throw e => (Abrupt e, s)
  | SetState f k => run env k (mkSys (f (ui s)) (trace s))
  | Perform c k =>
      let r := env _ c in
      run env (k r) (mkSys (ui s) (trace s ++ [Occurred c r]))
  end.

Definition exec {A} (env : Env) (m : Async A) (s : Sys) : Sys := snd (run env m s).

(** Running a handler up to its first awaited call (or to completion when
    it awaits nothing): what the page shows while the request is in flight. *)
Fixpoint start {A} (env : Env) (m : Async A) (s : Sys) : Sys :=
  match m with
  | Return _ | Throw _ => s
  | SetState f k => start env k (mkSys (f (ui s)) (trace s))
  | Perform c k =>
      if awaited c then s
      else let r := env _ c in
           start env (k r) (mkSys (ui s) (trace s ++ [Occurred c r]))
  end.

(** ** The handlers *)

(** [error instanceof Error ? error.message : fallback] *)
Definition message_or (fallback : string) (error : JsThrown) : string :=
  match error with
  | JsError m => m
  | JsOther _ => fallback
  end.

(** [a ?? b] on a possibly nullish value. *)
Definition nullish {A} (a : option A) (b : A) : A :=
  match a with
  | Some v => v
  | None => b
  end.

(** [payload.files]: throws a TypeError on [null] (the message is V8's),
    is undefined on an array. *)
Definition payload_files (payload : Payload) : Async (option (list FileRecord.t)) :=
  match payload with
  | PayloadNull => Throw (JsError "Cannot read properties of null (reading 'files')")
  | PayloadArray _ => Return None
  | PayloadWrapper records => Return (Some records)
  end.

(** [payload] itself where the slot is assigned from it: only reached when
    [payload.files] is nullish, that is for a bare array. *)
Definition payload_records (payload : Payload) : option (list FileRecord.t) :=
  match payload with
  | PayloadArray records => Some records
  | PayloadNull | PayloadWrapper _ => None
  end.

Definition listRequest : Request :=
  mkRequest "/api/files" GET (Some "no-store") None.

(** [fetchFiles], lines 47-67. *)
Definition fetchFiles : Async unit :=
  set (setIsLoading true) ;;
  set (setErrorMessage None) ;;
  try_catch_finally
    (response ← attempt (fetch listRequest) ;
     (if negb (ok response)
      then Throw (JsError "ファイル一覧の取得に失敗しました。")
      else Return tt) ;;
     payload ← attempt (response_json response) ;
     field ← payload_files payload ;
     set (setFiles (fun _ => nullish field (nullish (payload_records payload) []))))
    (fun error =>
       call (console_error error) ;;
       set (setErrorMessage (Some (message_or "予期せぬエラーが発生しました。" error))))
    (set (setIsLoading false)).


(** A string in a condition: the empty string is falsy. *)
Definition truthy (s : string) : bool :=
  match s with
  | EmptyString => false
  | String _ _ => true
  end.

Definition uploadRequest (file : File.t) (description : string) : Request :=
  let formData :=
    [("file", FormFile file)] ++
    (if truthy description then [("description", FormText description)] else []) in
  mkRequest "/api/files/upload" POST None (Some formData).

(** [handleUpload], lines 73-111.  [selectedFile] and [description] are
    read from the render the handler was created in. *)
Definition handleUpload (render : State) : Async unit :=
  call preventDefault ;;
  match selectedFile render with
  | None =>
      set (setErrorMessage (Some "アップロードするファイルを選択してください。"))
  | Some file =>
      set (setIsUploading true) ;;
      set (setErrorMessage None) ;;
      try_catch_finally
        (response ← attempt (fetch (uploadRequest file (description render))) ;
         (if negb (ok response)
          then Throw (JsError "ファイルのアップロードに失敗しました。")
          else Return tt) ;;
         set (setSelectedFile None) ;;
         set (setDescription "") ;;
         fetchFiles)
        (fun error =>
           call (console_error error) ;;
           set (setErrorMessage
                  (Some (message_or "アップロード中にエラーが発生しました。" error))))
        (set (setIsUploading false))
  end.

Definition downloadRequest (file : FileRecord.t) : Request :=
  mkRequest ("/api/files/" +:+ FileRecord.id file +:+ "/download") GET None None.

(** [handleDownload], lines 113-139. *)
Definition handleDownload (file : FileRecord.t) : Async unit :=
  set (setActiveDownloadId (Some (FileRecord.id file))) ;;
  set (setErrorMessage None) ;;
  try_catch_finally
    (response ← attempt (fetch (downloadRequest file)) ;
     (if negb (ok response)
      then Throw (JsError (FileRecord.fileName file +:+ "のダウンロードに失敗しました。"))
      else Return tt) ;;
     blob ← attempt (response_blob response) ;
     url ← attempt (createObjectURL blob) ;
     let link := mkAnchor url (FileRecord.fileName file) in
     attempt (appendChild link) ;;
     attempt (click link) ;;
     attempt (removeChild link) ;;
     call (revokeObjectURL url))
    (fun error =>
       call (console_error error) ;;
       set (setErrorMessage
              (Some (message_or "ダウンロード中にエラーが発生しました。" error))))
    (set (setActiveDownloadId None)).

Definition deleteRequest (fileId : string) : Request :=
  mkRequest ("/api/files/" +:+ fileId) DELETE None None.

(** [handleDelete], lines 141-162. *)
Definition handleDelete (fileId : string) : Async unit :=
  set (setDeletingId (Some fileId)) ;;
  set (setErrorMessage None) ;;
  try_catch_finally
    (response ← attempt (fetch (deleteRequest fileId)) ;
     (if negb (ok response)
      then Throw (JsError "ファイルの削除に失敗しました。")
      else Return tt) ;;
     set (setFiles (fun previous =>
                      filter (fun file => FileRecord.id file ≠ fileId) previous)))
    (fun error =>
       call (console_error error) ;;
       set (setErrorMessage (Some (message_or "削除中にエラーが発生しました。" error))))
    (set (setDeletingId None)).

(** ** Reading the log *)

(** The requests issued, in order. *)
Definition request_of (ev : Event) : option Request :=
  match ev with
  | Occurred (fetch req) _ => Some req
  | Occurred _ _ => None
  end.

Definition requests (log : list Event) : list Request := omap request_of log.

(** The object URLs handed out by [createObjectURL], and those released. *)
Definition created_of (ev : Event) : option string :=
  match ev with
  | Occurred (createObjectURL _) (Normal u) => Some u
  | Occurred _ _ => None
  end.

Definition revoked_of (ev : Event) : option string :=
  match ev with
  | Occurred (revokeObjectURL u) _ => Some u
  | Occurred _ _ => None
  end.

Definition created (log : list Event) : list string := omap created_of log.
Definition revoked (log : list Event) : list string := omap revoked_of log.

(** The states the page renders while a handler runs: one at every
    awaited call and one when the handler has settled. *)
Fixpoint renders {A} (env : Env) (m : Async A) (s : Sys) : list State :=
  match m with
  | Return _ | Throw _ => [ui s]
  | SetState f k => renders env k (mkSys (f (ui s)) (trace s))
  | Perform c k =>
      let r := env _ c in
      let rest := renders env (k r) (mkSys (ui s) (trace s ++ [Occurred c r])) in
      if awaited c then ui s :: rest else rest
  end.

(** The same page with another value in the error slot. *)
Definition with_error (old : option string) (s : Sys) : Sys :=
  mkSys (setErrorMessage old (ui s)) (trace s).

(** The ways [fetchFiles] fails, each with the message it leaves: the
    request rejects, the status is not 2xx, the body does not parse, or
    the body is [null]. *)
Inductive list_fails (env : Env) : string -> Prop :=
| list_rejected e :
    env _ (fetch listRequest) = Abrupt e ->
    list_fails env (message_or "予期せぬエラーが発生しました。" e)
| list_status response :
    env _ (fetch listRequest) = Normal response ->
    ¬ (200 <= status response <= 299) ->
    list_fails env "ファイル一覧の取得に失敗しました。"
| list_unparsed response e :
    env _ (fetch listRequest) = Normal response ->
    200 <= status response <= 299 ->
    env _ (response_json response) = Abrupt e ->
    list_fails env (message_or "予期せぬエラーが発生しました。" e)
| list_null response :
    env _ (fetch listRequest) = Normal response ->
    200 <= status response <= 299 ->
    env _ (response_json response) = Normal PayloadNull ->
    list_fails env "Cannot read properties of null (reading 'files')".

(** The ways a request with a fixed failure text fails: it rejects, or
    its status is not 2xx. *)
Inductive request_fails (env : Env) (req : Request) (fixed fallback : string) : string -> Prop :=
| request_rejected e :
    env _ (fetch req) = Abrupt e ->
    request_fails env req fixed fallback (message_or fallback e)
| request_status response :
    env _ (fetch req) = Normal response ->
    ¬ (200 <= status response <= 299) ->
    request_fails env req fixed fallback fixed.

(** ** Concrete pages and environments *)

(** An environment given by its replies to the requests, to the body
    reader of the listing and to the three DOM steps of the save-as
    trigger. *)
Definition browser (fetched : Request -> Completion Response)
    (decoded : Completion Payload) (appended clicked removed : Completion unit) : Env :=
  fun T c =>
    match c in Call T return T with
    | fetch req => fetched req
    | response_json _ => decoded
    | response_blob _ => Normal (mkBlob [104; 105])
    | createObjectURL _ => Normal "blob:https://files.example/1"
    | appendChild _ => appended
    | click _ => clicked
    | removeChild _ => removed
    | revokeObjectURL _ => tt
    | preventDefault => tt
    | console_error _ => tt
    end.

Definition f1 : FileRecord.t :=
  FileRecord.mk "f1" "report.pdf" 1536 "2024-05-01T09:00:00Z" (Some "application/pdf") None.
Definition f2 : FileRecord.t :=
  FileRecord.mk "f2" "photo.png" 1073741824 "2024-05-02T10:30:00Z" None (Some "cover").
Definition f3 : FileRecord.t :=
  FileRecord.mk "f3" "notes.txt" 0 "2024-05-03T08:15:00Z" None None.

Definition chosen : File.t := File.mk "notes.txt" 12 "text/plain".

(** A page showing [f1] and [f2], idle, with a stale error and nothing
    selected; the same page with a file and a description pending. *)
Definition page : Sys :=
  mkSys (mkState [f1; f2] false false (Some "stale") None "" None None) [].

Definition page_selected : Sys :=
  mkSys (mkState [f1; f2] false false (Some "stale") (Some chosen) "memo" None None) [].

(** The backend answers every request with 200 and lists [f3]. *)
Definition backend_up : Env :=
  browser (fun _ => Normal (mkResponse 200)) (Normal (PayloadWrapper [f3]))
          (Normal tt) (Normal tt) (Normal tt).

Definition backend_up_array : Env :=
  browser (fun _ => Normal (mkResponse 200)) (Normal (PayloadArray [f3]))
          (Normal tt) (Normal tt) (Normal tt).

(** The backend answers every request with 500. *)
Definition backend_down : Env :=
  browser (fun _ => Normal (mkResponse 500)) (Normal (PayloadArray []))
          (Normal tt) (Normal tt) (Normal tt).

(** The network is unreachable: every request rejects. *)
Definition offline : Env :=
  browser (fun _ => Abrupt (JsError "Failed to fetch")) (Normal (PayloadArray []))
          (Normal tt) (Normal tt) (Normal tt).

(** The download succeeds, and removing the link from the document
    throws. *)
Definition detached : Env :=
  browser (fun _ => Normal (mkResponse 200)) (Normal (PayloadArray []))
          (Normal tt) (Normal tt)
          (Abrupt (JsError "Failed to execute 'removeChild' on 'Node'")).

(** ** The rest of the component *)

(** [totalSize], lines 42-45: a left-to-right sum of the sizes in
    binary64, starting from 0. *)
Definition totalSize (files : list FileRecord.t) : float :=
  fold_left (fun acc file => (acc + FileRecord.size file)%float) files 0%float.

(** [formatDate], lines 23-30.  The text [toLocaleString] produces for the
    ja-JP locale with the options of the source is the engine's; it is a
    parameter [localize] from the ISO string to that text. *)
Definition formatDate (localize : string -> string) (isoDate : string) : string :=
  localize isoDate.

(** The effect of lines 69-71: the page as it is mounted, and after the
    listing it starts on mount has settled. *)
Definition mounting : Sys := mkSys initialState [].

Definition mounted (env : Env) : Sys := exec env fetchFiles mounting.

(** The change handler of the file input, lines 299-302:
    [setSelectedFile(event.target.files?.[0] ?? null)]. *)
Definition onFileChange (chosenFiles : option (list File.t)) : Async unit :=
  let file := chosenFiles ≫= head in
  set (setSelectedFile file).

(** The change handler of the description input, line 323. *)
Definition onDescriptionChange (value : string) : Async unit :=
  set (setDescription value).

(** [value && ...] on an optional string: null and the empty string
    render nothing. *)
Definition rendered_when_truthy (value : option string) : option string :=
  match value with
  | Some text => if truthy text then Some text else None
  | None => None
  end.

(** One row of the table, lines 236-270. *)
Record Row : Type := mkRow {
  rowKey : string;
  rowName : string;
  rowDescription : option string;
  rowSize : string;
  rowDate : string;
  downloadDisabled : bool;
  downloadLabel : string;
  deleteDisabled : bool;
  deleteLabel : string
}.

(** The body of the table, lines 230-272: the empty notice, or a row per
    file. *)
Inductive ListBody : Type :=
| EmptyNotice
| Rows (rows : list Row).

(** What the returned tree shows of the state, lines 164-351: the texts
    and flags that depend on it, without the fixed markup. *)
Record View : Type := mkView {
  fileCount : nat;
  totalSizeLabel : string;
  lastUpdated : string;
  refreshDisabled : bool;
  refreshLabel : string;
  listBody : ListBody;
  loadingNotice : bool;
  errorBanner : option string;
  selection : option (string * string * string);
  descriptionValue : string;
  submitDisabled : bool;
  submitLabel : string
}.

Definition renderRow (localize : string -> string) (s : State) (file : FileRecord.t) : Row :=
  let downloading := bool_decide (activeDownloadId s = Some (FileRecord.id file)) in
  let deleting := bool_decide (deletingId s = Some (FileRecord.id file)) in
  mkRow (FileRecord.id file)
        (FileRecord.fileName file)
        (rendered_when_truthy (FileRecord.description file))
        (formatFileSize (FileRecord.size file))
        (formatDate localize (FileRecord.uploadedAt file))
        downloading
        (if downloading then "生成中..." else "ダウンロード")
        deleting
        (if deleting then "削除中..." else "削除").

Definition render (localize : string -> string) (s : State) : View :=
  mkView (length (files s))
         (formatFileSize (totalSize (files s)))
         (match files s !! 0%nat with
          | Some file => formatDate localize (FileRecord.uploadedAt file)
          | None => "-"
          end)
         (isLoading s)
         (if isLoading s then "更新中..." else "最新の情報に更新")
         (if (length (files s) =? 0)%nat && negb (isLoading s)
          then EmptyNotice
          else Rows (renderRow localize s <$> files s))
         (isLoading s)
         (rendered_when_truthy (errorMessage s))
         (match selectedFile s with
          | Some file =>
              Some (File.name file, formatFileSize (File.size file),
                    if truthy (File.type file) then File.type file else "形式不明")
          | None => None
          end)
         (description s)
         (isUploading s)
         (if isUploading s then "アップロード中..." else "アップロード").

(** The states in which a handler is suspended at an awaited call, in
    order: [renders] without the state it settles in. *)
Fixpoint suspensions {A} (env : Env) (m : Async A) (s : Sys) : list State :=
  match m with
  | Return _ | Throw _ => []
  | SetState f k => suspensions env k (mkSys (f (ui s)) (trace s))
  | Perform c k =>
      let r := env _ c in
      let rest := suspensions env (k r) (mkSys (ui s) (trace s ++ [Occurred c r])) in
      if awaited c then ui s :: rest else rest
  end.

Global Instance Integral_eq_dec : EqDecision Integral.
Proof. solve_decision. Defined.

(** The records of a list have pairwise different ids. *)
Definition distinct_ids (records : list FileRecord.t) : Prop :=
  NoDup (FileRecord.id <$> records).

(** The upload is accepted and the listing that follows is refused. *)
Definition listing_down : Env :=
  browser (fun req => match method req with
                      | POST => Normal (mkResponse 201)
                      | _ => Normal (mkResponse 503)
                      end)
          (Normal (PayloadArray [])) (Normal tt) (Normal tt) (Normal tt).

(** Every request rejects with an [Error] whose message is empty. *)
Definition silent : Env :=
  browser (fun _ => Abrupt (JsError "")) (Normal (PayloadArray []))
          (Normal tt) (Normal tt) (Normal tt).

(** A stand-in for the engine's date formatting. *)
Definition iso_date (isoDate : string) : string := String.substring 0 10 isoDate.

(** * Properties *)

(** ** The monad *)

Section Running.
Context (env : Env).

Lemma run_bind {A B} (m : Async A) (f : A -> Async B) (s : Sys) :
  run env (m ≫= f) s =
  match run env m s with
  | (Normal a, s') => run env (f a) s'
  | (Abrupt e, s') => (Abrupt e, s')
  end.
Proof.
  change (m ≫= f) with (bind m f).
  revert s. induction m as [a | e | g k IH | T c k IH]; intros s; simpl; auto.
Qed.

Lemma run_try_catch {A} (body : Async A) (handler : JsThrown -> Async A) (s : Sys) :
  run env (try_catch body handler) s =
  match run env body s with
  | (Normal a, s') => (Normal a, s')
  | (Abrupt e, s') => run env (handler e) s'
  end.
Proof.
  revert s. induction body as [a | e | g k IH | T c k IH]; intros s; simpl; auto.
Qed.

(** The cleanup of a [finally] runs whichever way the body completes. *)
Lemma run_try_finally {A} (body : Async A) (cleanup : Async unit) (s : Sys) :
  run env (try_finally body cleanup) s =
  match run env cleanup (snd (run env body s)) with
  | (Normal _, s') => (fst (run env body s), s')
  | (Abrupt e, s') => (Abrupt e, s')
  end.
Proof.
  revert s. induction body as [a | e | g k IH | T c k IH]; intros s; simpl; auto.
  - change (bind cleanup (fun _ => Return a)) with (cleanup ≫= (fun _ => Return a)).
    rewrite run_bind. destruct (run env cleanup s) as [[[]|e] s']; reflexivity.
  - change (bind cleanup (fun _ => Throw e)) with (cleanup ≫= (fun _ : unit => @Throw A e)).
    rewrite run_bind. destruct (run env cleanup s) as [[[]|e'] s']; reflexivity.
Qed.

Lemma exec_bind_set {A} (f : State -> State) (m : Async A) (s : Sys) :
  exec env (set f ;; m) s = exec env m (mkSys (f (ui s)) (trace s)).
Proof. reflexivity. Qed.

Lemma exec_bind_call {A T} (c : Call T) (k : T -> Async A) (s : Sys) :
  exec env (call c ≫= k) s =
  exec env (k (env _ c)) (mkSys (ui s) (trace s ++ [Occurred c (env _ c)])).
Proof. reflexivity. Qed.

(** A state setter in the [finally] block is the last update made. *)
Lemma exec_finally_set {A} (body : Async A) (f : State -> State) (s : Sys) :
  exec env (try_finally body (set f)) s =
  mkSys (f (ui (exec env body s))) (trace (exec env body s)).
Proof. unfold exec. rewrite run_try_finally. reflexivity. Qed.

End Running.

Lemma ok_status (r : Response) : ok r = true <-> 200 <= status r <= 299.
Proof. unfold ok. rewrite andb_true_iff, !Z.leb_le. tauto. Qed.

Lemma not_ok_status (r : Response) : ok r = false <-> ¬ (200 <= status r <= 299).
Proof. rewrite <- ok_status. destruct (ok r); split; congruence. Qed.

(** ** [fetchFiles] *)

(** Case analysis on the replies of the environment a handler meets. *)
Ltac replies env :=
  repeat (simpl;
          match goal with
          | |- context [env ?T ?c] => destruct (env T c) eqn:?
          | |- context [ok ?r] => destruct (ok r) eqn:?
          | |- context [payload_files ?p] => destruct p
          | u : unit |- _ => destruct u
          end);
  simpl.

Lemma fetchFiles_accepted (env : Env) (s : Sys) response payload records :
  env _ (fetch listRequest) = Normal response ->
  200 <= status response <= 299 ->
  env _ (response_json response) = Normal payload ->
  payload = PayloadArray records \/ payload = PayloadWrapper records ->
  exec env fetchFiles s =
  mkSys (setIsLoading false
           (setFiles (fun _ => records) (setErrorMessage None (setIsLoading true (ui s)))))
        (trace s ++ [Occurred (fetch listRequest) (Normal response);
                     Occurred (response_json response) (Normal payload)]).
Proof.
  intros Hfetch Hok Hjson Hshape. apply ok_status in Hok.
  unfold exec, fetchFiles. simpl. rewrite Hfetch. simpl. rewrite Hok. simpl.
  rewrite Hjson. rewrite <- app_assoc.
  destruct Hshape as [-> | ->]; reflexivity.
Qed.

Lemma fetchFiles_failed (env : Env) (s : Sys) message :
  list_fails env message ->
  ui (exec env fetchFiles s) =
  setIsLoading false
    (setErrorMessage (Some message) (setErrorMessage None (setIsLoading true (ui s)))).
Proof.
  intros Hfail. unfold exec, fetchFiles. simpl.
  destruct Hfail as [e He | response Hr Hst | response e Hr Hst He | response Hr Hst He];
    rewrite Hr || rewrite He; simpl.
  - now replies env.
  - apply not_ok_status in Hst. rewrite Hst. now replies env.
  - apply ok_status in Hst. rewrite Hst. simpl. rewrite He. now replies env.
  - apply ok_status in Hst. rewrite Hst. simpl. rewrite He. now replies env.
Qed.

(** [fetchFiles] writes [files], [isLoading] and [errorMessage] only, and
    issues the listing request exactly once. *)
Lemma fetchFiles_frame (env : Env) (s : Sys) :
  let s' := exec env fetchFiles s in
  isUploading (ui s') = isUploading (ui s) /\
  selectedFile (ui s') = selectedFile (ui s) /\
  description (ui s') = description (ui s) /\
  activeDownloadId (ui s') = activeDownloadId (ui s) /\
  deletingId (ui s') = deletingId (ui s) /\
  requests (trace s') = requests (trace s) ++ [listRequest].
Proof.
  unfold exec, fetchFiles, requests. replies env;
    rewrite ?omap_app, <- ?app_assoc; simpl; rewrite ?app_nil_r; auto 10.
Qed.

(** C3.  A successful [list()] replaces the collection: whatever [files]
    held before, after a 2xx response whose body is a bare array of
    records or a wrapper object exposing them under [files], the state
    holds exactly the records of the response, in the response's order. *)
Theorem list_replaces_files (env : Env) (s : Sys) response payload records :
  env _ (fetch listRequest) = Normal response ->
  200 <= status response <= 299 ->
  env _ (response_json response) = Normal payload ->
  payload = PayloadArray records \/ payload = PayloadWrapper records ->
  files (ui (exec env fetchFiles s)) = records /\
  length (files (ui (exec env fetchFiles s))) = length records.
Proof.
  intros Hfetch Hok Hjson Hshape.
  rewrite (fetchFiles_accepted env s response payload records) by assumption.
  split; reflexivity.
Qed.

Lemma list_replaces_files_witness :
  files (ui (exec backend_up fetchFiles page)) = [f3] /\
  files (ui (exec backend_up_array fetchFiles page)) = [f3].
Proof.
  split.
  - apply (list_replaces_files backend_up page (mkResponse 200) (PayloadWrapper [f3]) [f3]);
      [reflexivity | simpl; lia | reflexivity | right; reflexivity].
  - apply (list_replaces_files backend_up_array page (mkResponse 200) (PayloadArray [f3]) [f3]);
      [reflexivity | simpl; lia | reflexivity | left; reflexivity].
Defined.

(** C4.  A failed [list()] leaves [files] as it was and sets
    [errorMessage]: to the fixed listing-failed text on a non-2xx status,
    and to the thrown error's message (or the default text) when the
    request or the decoding of its body throws. *)
Theorem list_failure_keeps_files (env : Env) (s : Sys) message :
  list_fails env message ->
  files (ui (exec env fetchFiles s)) = files (ui s) /\
  errorMessage (ui (exec env fetchFiles s)) = Some message /\
  (forall response,
     env _ (fetch listRequest) = Normal response ->
     ¬ (200 <= status response <= 299) ->
     message = "ファイル一覧の取得に失敗しました。").
Proof.
  intros Hfail. rewrite (fetchFiles_failed env s message Hfail).
  repeat split. intros response Hr Hst.
  destruct Hfail as [e He | r Hr' _ | r e Hr' Hst' _ | r Hr' Hst' _];
    try reflexivity; rewrite Hr in *; try discriminate;
    injection Hr' as <-; contradiction.
Qed.

Lemma list_failure_keeps_files_witness :
  (files (ui (exec backend_down fetchFiles page)) = [f1; f2] /\
   errorMessage (ui (exec backend_down fetchFiles page)) =
     Some "ファイル一覧の取得に失敗しました。") /\
  (files (ui (exec offline fetchFiles page)) = [f1; f2] /\
   errorMessage (ui (exec offline fetchFiles page)) = Some "Failed to fetch").
Proof.
  split.
  - destruct (list_failure_keeps_files backend_down page "ファイル一覧の取得に失敗しました。")
      as (Hfiles & Herror & _).
    + apply list_status with (response := mkResponse 500); [reflexivity | simpl; lia].
    + exact (conj Hfiles Herror).
  - destruct (list_failure_keeps_files offline page "Failed to fetch")
      as (Hfiles & Herror & _).
    + exact (list_rejected offline (JsError "Failed to fetch") eq_refl).
    + exact (conj Hfiles Herror).
Defined.

(** ** [handleUpload] *)

Lemma handleUpload_rejected (env : Env) (s : Sys) :
  selectedFile (ui s) = None ->
  exec env (handleUpload (ui s)) s =
  mkSys (setErrorMessage (Some "アップロードするファイルを選択してください。") (ui s))
        (trace s ++ [Occurred preventDefault tt]).
Proof.
  intros Hnone. unfold exec, handleUpload. rewrite Hnone. now replies env.
Qed.

(** C5.  An upload attempted with no file selected issues no request and
    sets the validation message at once; every other slot keeps its
    value. *)
Theorem upload_requires_selection (env : Env) (s : Sys) :
  selectedFile (ui s) = None ->
  let s' := exec env (handleUpload (ui s)) s in
  requests (trace s') = requests (trace s) /\
  errorMessage (ui s') = Some "アップロードするファイルを選択してください。" /\
  errorMessage (ui (start env (handleUpload (ui s)) s)) =
    Some "アップロードするファイルを選択してください。" /\
  files (ui s') = files (ui s) /\
  isUploading (ui s') = isUploading (ui s) /\
  selectedFile (ui s') = selectedFile (ui s) /\
  description (ui s') = description (ui s) /\
  isLoading (ui s') = isLoading (ui s) /\
  activeDownloadId (ui s') = activeDownloadId (ui s) /\
  deletingId (ui s') = deletingId (ui s).
Proof.
  intros Hnone s'. subst s'. rewrite (handleUpload_rejected env s Hnone). simpl.
  repeat split.
  - unfold requests. rewrite omap_app. simpl. apply app_nil_r.
  - unfold handleUpload. rewrite Hnone. reflexivity.
Qed.

Lemma upload_requires_selection_witness :
  requests (trace (exec backend_up (handleUpload (ui page)) page)) = [] /\
  errorMessage (ui (exec backend_up (handleUpload (ui page)) page)) =
    Some "アップロードするファイルを選択してください。" /\
  files (ui (exec backend_up (handleUpload (ui page)) page)) = [f1; f2].
Proof.
  destruct (upload_requires_selection backend_up page eq_refl)
    as (Hrequests & Herror & _ & Hfiles & _).
  exact (conj Hrequests (conj Herror Hfiles)).
Defined.

(** [fetchFiles] catches whatever is thrown inside it. *)
Lemma fetchFiles_settles (env : Env) (s : Sys) :
  fst (run env fetchFiles s) = Normal tt.
Proof. unfold fetchFiles. now replies env. Qed.

Local Opaque fetchFiles.

Lemma handleUpload_accepted (env : Env) (s : Sys) file response :
  selectedFile (ui s) = Some file ->
  env _ (fetch (uploadRequest file (description (ui s)))) = Normal response ->
  200 <= status response <= 299 ->
  exec env (handleUpload (ui s)) s =
  let sent :=
    mkSys (setDescription ""
             (setSelectedFile None (setErrorMessage None (setIsUploading true (ui s)))))
          (trace s ++ [Occurred preventDefault tt;
                       Occurred (fetch (uploadRequest file (description (ui s))))
                                (Normal response)]) in
  mkSys (setIsUploading false (ui (exec env fetchFiles sent)))
        (trace (exec env fetchFiles sent)).
Proof.
  intros Hsome Hfetch Hok. apply ok_status in Hok.
  unfold handleUpload. rewrite Hsome. unfold exec at 1. simpl.
  destruct (env _ preventDefault).
  rewrite Hfetch. simpl. rewrite Hok. simpl.
  rewrite run_try_finally, run_try_catch, <- app_assoc. simpl.
  match goal with |- context [run env fetchFiles ?sent] =>
    pose proof (fetchFiles_settles env sent) as Hsettles; unfold exec;
    destruct (run env fetchFiles sent) as [r s']
  end.
  simpl in *. subst r. reflexivity.
Qed.

Local Transparent fetchFiles.

Lemma handleUpload_failed (env : Env) (s : Sys) file message :
  selectedFile (ui s) = Some file ->
  request_fails env (uploadRequest file (description (ui s)))
                "ファイルのアップロードに失敗しました。"
                "アップロード中にエラーが発生しました。" message ->
  ui (exec env (handleUpload (ui s)) s) =
    setIsUploading false
      (setErrorMessage (Some message) (setErrorMessage None (setIsUploading true (ui s)))) /\
  requests (trace (exec env (handleUpload (ui s)) s)) =
    requests (trace s) ++ [uploadRequest file (description (ui s))].
Proof.
  intros Hsome Hfail. unfold exec, handleUpload, requests. rewrite Hsome. simpl.
  destruct Hfail as [e He | response Hr Hst]; rewrite ?He, ?Hr; simpl.
  - replies env. rewrite !omap_app. simpl. rewrite <- !app_assoc. auto.
  - apply not_ok_status in Hst. rewrite Hst.
    replies env. rewrite !omap_app. simpl. rewrite <- !app_assoc. auto.
Qed.

(** C6.  An upload with a file selected: on a 2xx response [selectedFile]
    becomes null, [description] the empty string, and the listing is
    requested exactly once, after the upload request; on a rejected
    request or a non-2xx response [errorMessage] is set, [selectedFile]
    and [description] keep their values and no listing is requested. *)
Theorem upload_settles (env : Env) (s : Sys) file :
  selectedFile (ui s) = Some file ->
  let request := uploadRequest file (description (ui s)) in
  let s' := exec env (handleUpload (ui s)) s in
  (forall response,
     env _ (fetch request) = Normal response ->
     200 <= status response <= 299 ->
     selectedFile (ui s') = None /\
     description (ui s') = "" /\
     requests (trace s') = requests (trace s) ++ [request; listRequest]) /\
  (forall message,
     request_fails env request "ファイルのアップロードに失敗しました。"
                   "アップロード中にエラーが発生しました。" message ->
     errorMessage (ui s') = Some message /\
     selectedFile (ui s') = Some file /\
     description (ui s') = description (ui s) /\
     requests (trace s') = requests (trace s) ++ [request]).
Proof.
  intros Hsome request s'. subst request s'. split.
  - intros response Hfetch Hok.
    rewrite (handleUpload_accepted env s file response Hsome Hfetch Hok). simpl.
    match goal with |- context [exec env fetchFiles ?sent] =>
      destruct (fetchFiles_frame env sent) as (_ & Hsel & Hdesc & _ & _ & Hreq)
    end.
    rewrite Hsel, Hdesc, Hreq. simpl.
    unfold requests. rewrite omap_app, <- app_assoc. auto.
  - intros message Hfail.
    destruct (handleUpload_failed env s file message Hsome Hfail) as [Hui Hreq].
    rewrite Hui, Hreq. simpl. auto.
Qed.

Lemma upload_settles_witness :
  (selectedFile (ui (exec backend_up (handleUpload (ui page_selected)) page_selected)) = None /\
   description (ui (exec backend_up (handleUpload (ui page_selected)) page_selected)) = "" /\
   requests (trace (exec backend_up (handleUpload (ui page_selected)) page_selected)) =
     [uploadRequest chosen "memo"; listRequest]) /\
  (errorMessage (ui (exec backend_down (handleUpload (ui page_selected)) page_selected)) =
     Some "ファイルのアップロードに失敗しました。" /\
   selectedFile (ui (exec backend_down (handleUpload (ui page_selected)) page_selected)) =
     Some chosen /\
   description (ui (exec backend_down (handleUpload (ui page_selected)) page_selected)) =
     "memo").
Proof.
  split.
  - destruct (upload_settles backend_up page_selected chosen eq_refl) as [Haccepted _].
    apply (Haccepted (mkResponse 200)); [reflexivity | simpl; lia].
  - destruct (upload_settles backend_down page_selected chosen eq_refl) as [_ Hfailed].
    destruct (Hfailed "ファイルのアップロードに失敗しました。") as (Herror & Hsel & Hdesc & _).
    + apply request_status with (response := mkResponse 500); [reflexivity | simpl; lia].
    + exact (conj Herror (conj Hsel Hdesc)).
Defined.

(** ** [handleDelete] *)

Lemma handleDelete_accepted (env : Env) (s : Sys) fileId response :
  env _ (fetch (deleteRequest fileId)) = Normal response ->
  200 <= status response <= 299 ->
  ui (exec env (handleDelete fileId) s) =
  setDeletingId None
    (setFiles (fun previous => filter (fun file => FileRecord.id file ≠ fileId) previous)
       (setErrorMessage None (setDeletingId (Some fileId) (ui s)))).
Proof.
  intros Hfetch Hok. apply ok_status in Hok.
  unfold exec, handleDelete. simpl. rewrite Hfetch. simpl. rewrite Hok. reflexivity.
Qed.

Lemma handleDelete_failed (env : Env) (s : Sys) fileId message :
  request_fails env (deleteRequest fileId) "ファイルの削除に失敗しました。"
                "削除中にエラーが発生しました。" message ->
  ui (exec env (handleDelete fileId) s) =
  setDeletingId None
    (setErrorMessage (Some message)
       (setErrorMessage None (setDeletingId (Some fileId) (ui s)))).
Proof.
  intros Hfail. unfold exec, handleDelete. simpl.
  destruct Hfail as [e He | response Hr Hst]; rewrite ?He, ?Hr; simpl.
  - now replies env.
  - apply not_ok_status in Hst. rewrite Hst. now replies env.
Qed.

(** C7.  [delete(id)]: on a 2xx response the new [files] is the old list
    filtered on [file.id !== id], so it keeps, in their order, exactly
    the records whose id differs; on a rejected request or a non-2xx
    response [files] is unchanged and [errorMessage] is set. *)
Theorem delete_filters_by_id (env : Env) (s : Sys) (fileId : string) :
  let s' := exec env (handleDelete fileId) s in
  (forall response,
     env _ (fetch (deleteRequest fileId)) = Normal response ->
     200 <= status response <= 299 ->
     files (ui s') = filter (fun file => FileRecord.id file ≠ fileId) (files (ui s)) /\
     sublist (files (ui s')) (files (ui s)) /\
     (forall file : FileRecord.t,
        file ∈ files (ui s') <-> file ∈ files (ui s) /\ FileRecord.id file ≠ fileId)) /\
  (forall message,
     request_fails env (deleteRequest fileId) "ファイルの削除に失敗しました。"
                   "削除中にエラーが発生しました。" message ->
     files (ui s') = files (ui s) /\ errorMessage (ui s') = Some message).
Proof.
  intros s'. subst s'. split.
  - intros response Hfetch Hok.
    rewrite (handleDelete_accepted env s fileId response Hfetch Hok). simpl.
    split; [reflexivity | split].
    + apply sublist_filter.
    + intros file. rewrite list_elem_of_filter. tauto.
  - intros message Hfail. rewrite (handleDelete_failed env s fileId message Hfail).
    split; reflexivity.
Qed.

Lemma delete_filters_by_id_witness :
  files (ui (exec backend_up (handleDelete "f1") page)) = [f2] /\
  (files (ui (exec backend_down (handleDelete "f1") page)) = [f1; f2] /\
   errorMessage (ui (exec backend_down (handleDelete "f1") page)) =
     Some "ファイルの削除に失敗しました。").
Proof.
  split.
  - destruct (delete_filters_by_id backend_up page "f1") as [Haccepted _].
    destruct (Haccepted (mkResponse 200)) as [Hfiles _];
      [reflexivity | simpl; lia | ].
    rewrite Hfiles. reflexivity.
  - destruct (delete_filters_by_id backend_down page "f1") as [_ Hfailed].
    apply (Hfailed "ファイルの削除に失敗しました。").
    apply request_status with (response := mkResponse 500); [reflexivity | simpl; lia].
Defined.

(** ** [handleDownload] *)

(** When the three steps of the save-as trigger complete, the object URL
    created for the download is released once. *)
Lemma handleDownload_releases (env : Env) (s : Sys) file response blob u :
  env _ (fetch (downloadRequest file)) = Normal response ->
  200 <= status response <= 299 ->
  env _ (response_blob response) = Normal blob ->
  env _ (createObjectURL blob) = Normal u ->
  env _ (appendChild (mkAnchor u (FileRecord.fileName file))) = Normal tt ->
  env _ (click (mkAnchor u (FileRecord.fileName file))) = Normal tt ->
  env _ (removeChild (mkAnchor u (FileRecord.fileName file))) = Normal tt ->
  let s' := exec env (handleDownload file) s in
  created (trace s') = created (trace s) ++ [u] /\
  revoked (trace s') = revoked (trace s) ++ [u] /\
  errorMessage (ui s') = None.
Proof.
  intros Hfetch Hok Hblob Hurl Happend Hclick Hremove. apply ok_status in Hok.
  unfold exec, handleDownload, created, revoked. simpl.
  rewrite Hfetch. simpl. rewrite Hok. simpl. rewrite Hblob. simpl.
  rewrite Hurl. simpl. rewrite Happend. simpl. rewrite Hclick. simpl.
  rewrite Hremove. simpl.
  rewrite !omap_app. simpl. rewrite !app_nil_r. auto.
Qed.

(** When one of the three steps throws, the [catch] block is entered
    before [revokeObjectURL] is reached: the URL is not released. *)
Lemma handleDownload_leaks (env : Env) (s : Sys) file response blob u e :
  env _ (fetch (downloadRequest file)) = Normal response ->
  200 <= status response <= 299 ->
  env _ (response_blob response) = Normal blob ->
  env _ (createObjectURL blob) = Normal u ->
  env _ (appendChild (mkAnchor u (FileRecord.fileName file))) = Abrupt e \/
  env _ (click (mkAnchor u (FileRecord.fileName file))) = Abrupt e \/
  env _ (removeChild (mkAnchor u (FileRecord.fileName file))) = Abrupt e ->
  let s' := exec env (handleDownload file) s in
  created (trace s') = created (trace s) ++ [u] /\
  revoked (trace s') = revoked (trace s).
Proof.
  intros Hfetch Hok Hblob Hurl Hthrows. apply ok_status in Hok.
  unfold exec, handleDownload, created, revoked. simpl.
  rewrite Hfetch. simpl. rewrite Hok. simpl. rewrite Hblob. simpl.
  rewrite Hurl. simpl.
  destruct Hthrows as [H | [H | H]]; replies env; try congruence;
    rewrite !omap_app; simpl; rewrite ?app_nil_r; auto.
Qed.

(** C2.  A download whose response is successful and whose object URL is
    created, followed by a save-as trigger that throws while the link is
    removed: the URL was created once and is never released, while the
    download indicator is reset and the error is shown. *)
Theorem download_leaks_url_when_trigger_throws :
  let s' := exec detached (handleDownload f1) page in
  created (trace s') = ["blob:https://files.example/1"] /\
  revoked (trace s') = [] /\
  activeDownloadId (ui s') = None /\
  errorMessage (ui s') = Some "Failed to execute 'removeChild' on 'Node'".
Proof. vm_compute. auto. Qed.

(** ** The in-flight flags *)

(** C1.  Whatever the environment answers (a 2xx response, another
    status, a rejected request, a body that cannot be read), once the
    handler has settled its in-flight flag is idle again: [isLoading] is
    false after [fetchFiles], [isUploading] is false after an upload that
    sent its request, [activeDownloadId] is null after a download and
    [deletingId] is null after a delete. *)
Theorem in_flight_flags_return_to_idle (env : Env) (s : Sys) :
  isLoading (ui (exec env fetchFiles s)) = false /\
  (forall file,
     selectedFile (ui s) = Some file ->
     isUploading (ui (exec env (handleUpload (ui s)) s)) = false) /\
  (forall file, activeDownloadId (ui (exec env (handleDownload file) s)) = None) /\
  (forall fileId, deletingId (ui (exec env (handleDelete fileId) s)) = None).
Proof.
  repeat split.
  - unfold fetchFiles, try_catch_finally.
    rewrite !exec_bind_set, exec_finally_set. reflexivity.
  - intros file Hsome. unfold handleUpload, try_catch_finally.
    rewrite exec_bind_call, Hsome, !exec_bind_set, exec_finally_set. reflexivity.
  - intros file. unfold handleDownload, try_catch_finally.
    rewrite !exec_bind_set, exec_finally_set. reflexivity.
  - intros fileId. unfold handleDelete, try_catch_finally.
    rewrite !exec_bind_set, exec_finally_set. reflexivity.
Qed.

Lemma in_flight_flags_return_to_idle_witness :
  isLoading (ui (exec offline fetchFiles page_selected)) = false /\
  isUploading (ui (exec backend_down (handleUpload (ui page_selected)) page_selected)) = false /\
  activeDownloadId (ui (exec detached (handleDownload f1) page_selected)) = None /\
  deletingId (ui (exec backend_up (handleDelete "f2") page_selected)) = None.
Proof.
  exact (conj (proj1 (in_flight_flags_return_to_idle offline page_selected))
    (conj (proj1 (proj2 (in_flight_flags_return_to_idle backend_down page_selected))
                 chosen eq_refl)
    (conj (proj1 (proj2 (proj2 (in_flight_flags_return_to_idle detached page_selected))) f1)
          (proj2 (proj2 (proj2 (in_flight_flags_return_to_idle backend_up page_selected)))
                 "f2")))).
Defined.

(** ** The error slot *)

(** C9 as stated fails on the guard of [handleUpload]: an upload
    attempted with nothing selected never shows an empty error slot, the
    guard writes the validation message and returns. *)
Lemma upload_rejection_does_not_clear :
  errorMessage (ui (start backend_up (handleUpload (ui page)) page)) <> None /\
  None ∉ (errorMessage <$> renders backend_up (handleUpload (ui page)) page).
Proof.
  split.
  - vm_compute. discriminate.
  - vm_compute. intros H. inversion H as [| ? ? ? H']; subst. inversion H'.
Qed.

(** C9, amended.  A handler that sends a request shows an empty error
    slot from its first awaited call on: [fetchFiles], [handleDownload],
    [handleDelete], and [handleUpload] when a file is selected.  An upload
    with nothing selected writes the validation message instead.  Either
    way nothing the page renders from then on depends on what the slot
    held before the attempt. *)
Theorem error_slot_reset_on_attempt (env : Env) (s : Sys) :
  errorMessage (ui (start env fetchFiles s)) = None /\
  (forall file, errorMessage (ui (start env (handleDownload file) s)) = None) /\
  (forall fileId, errorMessage (ui (start env (handleDelete fileId) s)) = None) /\
  (forall file,
     selectedFile (ui s) = Some file ->
     errorMessage (ui (start env (handleUpload (ui s)) s)) = None) /\
  (selectedFile (ui s) = None ->
     errorMessage (ui (start env (handleUpload (ui s)) s)) =
       Some "アップロードするファイルを選択してください。") /\
  (forall old,
     renders env fetchFiles (with_error old s) = renders env fetchFiles s /\
     renders env (handleUpload (ui (with_error old s))) (with_error old s) =
       renders env (handleUpload (ui s)) s /\
     (forall file,
        renders env (handleDownload file) (with_error old s) =
          renders env (handleDownload file) s) /\
     (forall fileId,
        renders env (handleDelete fileId) (with_error old s) =
          renders env (handleDelete fileId) s)).
Proof.
  split; [reflexivity | ].
  split; [reflexivity | ].
  split; [reflexivity | ].
  split; [intros file Hsome; unfold handleUpload; rewrite Hsome; reflexivity | ].
  split; [intros Hnone; unfold handleUpload; rewrite Hnone; reflexivity | ].
  intros old.
  split; [reflexivity | ].
  split; [ | split; reflexivity].
  unfold handleUpload. simpl. destruct (selectedFile (ui s)); reflexivity.
Qed.

Lemma error_slot_reset_on_attempt_witness :
  errorMessage (ui (start backend_down (handleUpload (ui page_selected)) page_selected)) = None /\
  errorMessage (ui (start backend_down (handleUpload (ui page)) page)) =
    Some "アップロードするファイルを選択してください。" /\
  renders offline fetchFiles (with_error (Some "older") page) = renders offline fetchFiles page.
Proof.
  destruct (error_slot_reset_on_attempt backend_down page_selected)
    as (_ & _ & _ & Hcleared & _).
  destruct (error_slot_reset_on_attempt backend_down page) as (_ & _ & _ & _ & Hguard & _).
  destruct (error_slot_reset_on_attempt offline page) as (_ & _ & _ & _ & _ & Hfresh).
  exact (conj (Hcleared chosen eq_refl)
              (conj (Hguard eq_refl) (proj1 (Hfresh (Some "older"))))).
Defined.

(** ** [formatFileSize] *)

(** C8.  [formatFileSize(0)] is "0 B", [formatFileSize(1536)] is "1.5 KB"
    and [formatFileSize(1073741824)] is "1.0 GB". *)
Theorem formatFileSize_examples :
  formatFileSize 0 = "0 B" /\
  formatFileSize 1536 = "1.5 KB" /\
  formatFileSize 1073741824 = "1.0 GB".
Proof. vm_compute. auto. Qed.

(** Negative sizes: the logarithm is NaN, and so is the index. *)
Lemma unitIndex_negative (sizeInBytes : float) :
  (sizeInBytes <? 0)%float = true ->
  unitIndex sizeInBytes = IntNaN /\ element units (unitIndex sizeInBytes) = None.
Proof.
  intros Hneg.
  assert (Hlog : Math_log sizeInBytes = nan) by (unfold Math_log; now rewrite Hneg).
  unfold unitIndex. rewrite Hlog. split; reflexivity.
Qed.

(** C10.  One byte below 1024^5 the logarithm rounds to that of 1024^5,
    the quotient is exactly 5, and the unit looked up is past the end of
    [units]; at 1024^5 - 4 the index is still 4. *)
Theorem formatFileSize_below_pebibyte :
  (1125899906842623 <? 0x1p50)%float = true /\
  Math_log 1125899906842623 = Math_log 0x1p50 /\
  unitIndex 1125899906842623 = Int 5 /\
  element units (unitIndex 1125899906842623) = None /\
  formatFileSize 1125899906842623 = "1.0 undefined" /\
  unitIndex 1125899906842620 = Int 4 /\
  formatFileSize 1125899906842620 = "1024.0 TB".
Proof. vm_compute. auto 10. Qed.

(** * Further properties of the component *)

(** ** What the handlers never do *)

(** X1.  None of the four handlers ever rejects: whatever the environment
    answers, every thrown value is caught inside the handler and the
    handler completes normally. *)
Theorem handlers_never_reject (env : Env) (s : Sys) :
  fst (run env fetchFiles s) = Normal tt /\
  fst (run env (handleUpload (ui s)) s) = Normal tt /\
  (forall file, fst (run env (handleDownload file) s) = Normal tt) /\
  (forall fileId, fst (run env (handleDelete fileId) s) = Normal tt).
Proof.
  split; [apply fetchFiles_settles | ].
  split; [ | split].
  - unfold handleUpload, fetchFiles. destruct (selectedFile (ui s)); now replies env.
  - intros file. unfold handleDownload. now replies env.
  - intros fileId. unfold handleDelete. now replies env.
Qed.

(** X2.  Each handler sends its own request once and nothing else:
    [fetchFiles] one GET of the listing, [handleDownload] one GET of the
    file, [handleDelete] one DELETE, with no retry and no listing
    afterwards; an upload with a file selected sends its POST and at most
    one listing after it. *)
Theorem handlers_send_one_request (env : Env) (s : Sys) :
  requests (trace (exec env fetchFiles s)) = requests (trace s) ++ [listRequest] /\
  (forall file,
     requests (trace (exec env (handleDownload file) s)) =
       requests (trace s) ++ [downloadRequest file]) /\
  (forall fileId,
     requests (trace (exec env (handleDelete fileId) s)) =
       requests (trace s) ++ [deleteRequest fileId]) /\
  (forall file,
     selectedFile (ui s) = Some file ->
     let request := uploadRequest file (description (ui s)) in
     requests (trace (exec env (handleUpload (ui s)) s)) = requests (trace s) ++ [request] \/
     requests (trace (exec env (handleUpload (ui s)) s)) =
       requests (trace s) ++ [request; listRequest]).
Proof.
  split; [apply fetchFiles_frame | ].
  split; [ | split].
  - intros file. unfold exec, handleDownload, requests.
    replies env; rewrite ?omap_app, <- ?app_assoc; simpl; rewrite ?app_nil_r; auto.
  - intros fileId. unfold exec, handleDelete, requests.
    replies env; rewrite ?omap_app, <- ?app_assoc; simpl; rewrite ?app_nil_r; auto.
  - intros file Hsome request. subst request.
    unfold exec, handleUpload, fetchFiles, requests. rewrite Hsome.
    replies env; rewrite ?omap_app, <- ?app_assoc; simpl; rewrite ?app_nil_r; auto.
Qed.

Lemma handlers_send_one_request_witness :
  requests (trace (exec backend_down (handleUpload (ui page_selected)) page_selected)) =
    [uploadRequest chosen "memo"] \/
  requests (trace (exec backend_down (handleUpload (ui page_selected)) page_selected)) =
    [uploadRequest chosen "memo"; listRequest].
Proof.
  exact (proj2 (proj2 (proj2 (handlers_send_one_request backend_down page_selected)))
           chosen eq_refl).
Defined.

Lemma handleDownload_keeps_files (env : Env) (s : Sys) file :
  files (ui (exec env (handleDownload file) s)) = files (ui s).
Proof. unfold exec, handleDownload. now replies env. Qed.

(** X3.  Each handler writes its own slots only.  A download never
    changes [files]; neither a download nor a delete touches the pending
    selection, the description or the flags of the other operations; a
    listing leaves the selection, the description and the other flags
    alone; an upload leaves the per-row flags alone. *)
Theorem handlers_keep_other_slots (env : Env) (s : Sys) :
  (let s' := exec env fetchFiles s in
   isUploading (ui s') = isUploading (ui s) /\
   selectedFile (ui s') = selectedFile (ui s) /\
   description (ui s') = description (ui s) /\
   activeDownloadId (ui s') = activeDownloadId (ui s) /\
   deletingId (ui s') = deletingId (ui s)) /\
  (forall file,
     let s' := exec env (handleDownload file) s in
     files (ui s') = files (ui s) /\
     isLoading (ui s') = isLoading (ui s) /\
     isUploading (ui s') = isUploading (ui s) /\
     selectedFile (ui s') = selectedFile (ui s) /\
     description (ui s') = description (ui s) /\
     deletingId (ui s') = deletingId (ui s)) /\
  (forall fileId,
     let s' := exec env (handleDelete fileId) s in
     isLoading (ui s') = isLoading (ui s) /\
     isUploading (ui s') = isUploading (ui s) /\
     selectedFile (ui s') = selectedFile (ui s) /\
     description (ui s') = description (ui s) /\
     activeDownloadId (ui s') = activeDownloadId (ui s)) /\
  (let s' := exec env (handleUpload (ui s)) s in
   activeDownloadId (ui s') = activeDownloadId (ui s) /\
   deletingId (ui s') = deletingId (ui s)).
Proof.
  split; [ | split; [ | split]].
  - destruct (fetchFiles_frame env s) as (H1 & H2 & H3 & H4 & H5 & _). auto.
  - intros file. unfold exec, handleDownload. now replies env.
  - intros fileId. unfold exec, handleDelete. now replies env.
  - unfold exec, handleUpload, fetchFiles. destruct (selectedFile (ui s)); now replies env.
Qed.

(** ** More on [handleDownload] *)

(** X4.  A download that is answered 2xx and whose save-as steps all
    complete goes through exactly these calls, in this order: the request,
    the body read, one object URL made, the link appended, clicked and
    removed, and that same URL released; it shows no error and leaves
    [files] as it was. *)
Theorem download_releases_url_once (env : Env) (s : Sys) file response blob u :
  env _ (fetch (downloadRequest file)) = Normal response ->
  200 <= status response <= 299 ->
  env _ (response_blob response) = Normal blob ->
  env _ (createObjectURL blob) = Normal u ->
  env _ (appendChild (mkAnchor u (FileRecord.fileName file))) = Normal tt ->
  env _ (click (mkAnchor u (FileRecord.fileName file))) = Normal tt ->
  env _ (removeChild (mkAnchor u (FileRecord.fileName file))) = Normal tt ->
  let s' := exec env (handleDownload file) s in
  let link := mkAnchor u (FileRecord.fileName file) in
  trace s' =
    trace s ++ [Occurred (fetch (downloadRequest file)) (Normal response);
                Occurred (response_blob response) (Normal blob);
                Occurred (createObjectURL blob) (Normal u);
                Occurred (appendChild link) (Normal tt);
                Occurred (click link) (Normal tt);
                Occurred (removeChild link) (Normal tt);
                Occurred (revokeObjectURL u) tt] /\
  created (trace s') = created (trace s) ++ [u] /\
  revoked (trace s') = revoked (trace s) ++ [u] /\
  errorMessage (ui s') = None /\
  files (ui s') = files (ui s).
Proof.
  intros Hfetch Hok Hblob Hurl Happend Hclick Hremove s' link.
  destruct (handleDownload_releases env s file response blob u
              Hfetch Hok Hblob Hurl Happend Hclick Hremove) as (Hc & Hr & He).
  split; [ | split; [exact Hc | split; [exact Hr | split; [exact He | ]]]].
  - subst s' link. apply ok_status in Hok. unfold exec, handleDownload. simpl.
    rewrite Hfetch. simpl. rewrite Hok. simpl. rewrite Hblob. simpl.
    rewrite Hurl. simpl. rewrite Happend. simpl. rewrite Hclick. simpl.
    rewrite Hremove. simpl. destruct (env _ (revokeObjectURL u)).
    rewrite <- !app_assoc. reflexivity.
  - apply handleDownload_keeps_files.
Qed.

Lemma download_releases_url_once_witness :
  created (trace (exec backend_up (handleDownload f1) page)) =
    ["blob:https://files.example/1"] /\
  revoked (trace (exec backend_up (handleDownload f1) page)) =
    ["blob:https://files.example/1"] /\
  errorMessage (ui (exec backend_up (handleDownload f1) page)) = None.
Proof.
  destruct (download_releases_url_once backend_up page f1 (mkResponse 200)
              (mkBlob [104; 105]) "blob:https://files.example/1")
    as (_ & Hc & Hr & He & _);
    [reflexivity | simpl; lia | reflexivity | reflexivity | reflexivity | reflexivity
     | reflexivity | ].
  exact (conj Hc (conj Hr He)).
Defined.

(** X5.  A download that is refused or rejected makes no object URL and
    shows an error: on a non-2xx status the message names the file,
    [fileName] followed by the fixed download-failed text; [files] is
    unchanged. *)
Theorem download_failure_names_file (env : Env) (s : Sys) file message :
  request_fails env (downloadRequest file)
                (FileRecord.fileName file +:+ "のダウンロードに失敗しました。")
                "ダウンロード中にエラーが発生しました。" message ->
  let s' := exec env (handleDownload file) s in
  errorMessage (ui s') = Some message /\
  created (trace s') = created (trace s) /\
  revoked (trace s') = revoked (trace s) /\
  files (ui s') = files (ui s).
Proof.
  intros Hfail. unfold exec, handleDownload, created, revoked. simpl.
  destruct Hfail as [e He | response Hr Hst]; rewrite ?He, ?Hr; simpl.
  - replies env. rewrite !omap_app. simpl. rewrite !app_nil_r. auto.
  - apply not_ok_status in Hst. rewrite Hst.
    replies env. rewrite !omap_app. simpl. rewrite !app_nil_r. auto.
Qed.

Lemma download_failure_names_file_witness :
  errorMessage (ui (exec backend_down (handleDownload f1) page)) =
    Some "report.pdfのダウンロードに失敗しました。" /\
  created (trace (exec backend_down (handleDownload f1) page)) = [] /\
  revoked (trace (exec backend_down (handleDownload f1) page)) = [] /\
  files (ui (exec backend_down (handleDownload f1) page)) = [f1; f2].
Proof.
  apply (download_failure_names_file backend_down page f1
           "report.pdfのダウンロードに失敗しました。").
  apply request_status with (response := mkResponse 500); [reflexivity | simpl; lia].
Defined.

(** ** Upload followed by its listing *)

(** X6.  After an accepted upload the page shows what the listing that
    follows says, not the upload: when that listing is accepted, [files]
    is its records and no error is shown; when it fails, the selection
    and description are cleared all the same, [files] keeps its old
    records and the error shown is the listing's.  Both flags are idle at
    the end. *)
Theorem upload_shows_following_listing (env : Env) (s : Sys) file response :
  selectedFile (ui s) = Some file ->
  env _ (fetch (uploadRequest file (description (ui s)))) = Normal response ->
  200 <= status response <= 299 ->
  let s' := exec env (handleUpload (ui s)) s in
  (forall listing payload records,
     env _ (fetch listRequest) = Normal listing ->
     200 <= status listing <= 299 ->
     env _ (response_json listing) = Normal payload ->
     payload = PayloadArray records \/ payload = PayloadWrapper records ->
     files (ui s') = records /\ errorMessage (ui s') = None) /\
  (forall message,
     list_fails env message ->
     files (ui s') = files (ui s) /\
     errorMessage (ui s') = Some message /\
     selectedFile (ui s') = None /\
     description (ui s') = "") /\
  isUploading (ui s') = false /\
  isLoading (ui s') = false.
Proof.
  intros Hsome Hfetch Hok s'. subst s'.
  rewrite (handleUpload_accepted env s file response Hsome Hfetch Hok). simpl.
  split; [ | split].
  - intros listing payload records Hl Hlok Hjson Hshape.
    erewrite fetchFiles_accepted by eassumption. auto.
  - intros message Hfail. rewrite (fetchFiles_failed env _ message Hfail). auto.
  - split; [reflexivity | ].
    match goal with |- context [exec env fetchFiles ?sent] =>
      unfold fetchFiles, try_catch_finally;
      rewrite !exec_bind_set, exec_finally_set
    end.
    reflexivity.
Qed.

Lemma upload_shows_following_listing_witness :
  (files (ui (exec backend_up (handleUpload (ui page_selected)) page_selected)) = [f3] /\
   errorMessage (ui (exec backend_up (handleUpload (ui page_selected)) page_selected)) = None) /\
  (files (ui (exec listing_down (handleUpload (ui page_selected)) page_selected)) = [f1; f2] /\
   errorMessage (ui (exec listing_down (handleUpload (ui page_selected)) page_selected)) =
     Some "ファイル一覧の取得に失敗しました。" /\
   selectedFile (ui (exec listing_down (handleUpload (ui page_selected)) page_selected)) = None /\
   description (ui (exec listing_down (handleUpload (ui page_selected)) page_selected)) = "").
Proof.
  split.
  - destruct (upload_shows_following_listing backend_up page_selected chosen (mkResponse 200))
      as (Hshown & _); [reflexivity | reflexivity | simpl; lia | ].
    apply (Hshown (mkResponse 200) (PayloadWrapper [f3]) [f3]);
      [reflexivity | simpl; lia | reflexivity | right; reflexivity].
  - destruct (upload_shows_following_listing listing_down page_selected chosen (mkResponse 201))
      as (_ & Hfailed & _); [reflexivity | reflexivity | simpl; lia | ].
    apply (Hfailed "ファイル一覧の取得に失敗しました。").
    apply list_status with (response := mkResponse 503); [reflexivity | simpl; lia].
Defined.

(** ** Deletes in sequence *)

Section Deletes.
Context (env : Env).

(** The list left by an acknowledged delete. *)
Lemma files_after_delete (s : Sys) fileId response :
  env _ (fetch (deleteRequest fileId)) = Normal response ->
  200 <= status response <= 299 ->
  files (ui (exec env (handleDelete fileId) s)) =
  filter (fun file => FileRecord.id file ≠ fileId) (files (ui s)).
Proof.
  intros Hfetch Hok. now rewrite (handleDelete_accepted env s fileId response Hfetch Hok).
Qed.

Lemma filter_absent_id (records : list FileRecord.t) fileId :
  Forall (fun file => FileRecord.id file ≠ fileId) records ->
  filter (fun file => FileRecord.id file ≠ fileId) records = records.
Proof.
  induction 1 as [| file records Hfile _ IH]; [reflexivity | ].
  rewrite filter_cons_True by assumption. now rewrite IH.
Qed.

Lemma filter_present_id (records : list FileRecord.t) (file : FileRecord.t) :
  distinct_ids records ->
  file ∈ records ->
  S (length (filter (fun other => FileRecord.id other ≠ FileRecord.id file) records)) =
  length records.
Proof.
  unfold distinct_ids. induction records as [| r records IH]; intros Hnodup Hin.
  - inversion Hin.
  - rewrite fmap_cons in Hnodup. apply NoDup_cons in Hnodup as [Hfresh Hnodup].
    apply elem_of_cons in Hin as [-> | Hin].
    + rewrite filter_cons_False by (intros Hne; now apply Hne).
      rewrite filter_absent_id; [reflexivity | ].
      apply Forall_forall. intros other Hother Heq. apply Hfresh.
      rewrite <- Heq. now apply list_elem_of_fmap_2.
    + rewrite filter_cons_True.
      * simpl. now rewrite IH.
      * intros Heq. apply Hfresh. rewrite Heq. now apply list_elem_of_fmap_2.
Qed.

(** X7.  What an acknowledged delete removes.  When no record has the id,
    [files] is unchanged; when the ids of [files] are pairwise different
    and a record has the id, exactly that one record goes and the ids
    stay pairwise different; in every case no record with the id is left,
    however many there were. *)
Theorem delete_removes_matching_records (s : Sys) fileId response :
  env _ (fetch (deleteRequest fileId)) = Normal response ->
  200 <= status response <= 299 ->
  let after := files (ui (exec env (handleDelete fileId) s)) in
  Forall (fun file => FileRecord.id file ≠ fileId) after /\
  (Forall (fun file => FileRecord.id file ≠ fileId) (files (ui s)) -> after = files (ui s)) /\
  (distinct_ids (files (ui s)) ->
   distinct_ids after /\
   forall file, file ∈ files (ui s) -> FileRecord.id file = fileId ->
                S (length after) = length (files (ui s))).
Proof.
  intros Hfetch Hok after. subst after.
  rewrite (files_after_delete s fileId response Hfetch Hok).
  split; [ | split].
  - apply Forall_forall. intros file Hin. now apply list_elem_of_filter in Hin as [Hne _].
  - apply filter_absent_id.
  - intros Hdistinct. split.
    + unfold distinct_ids in *.
      apply (sublist_NoDup _ (FileRecord.id <$> files (ui s))); [exact Hdistinct | ].
      apply fmap_sublist, sublist_filter.
    + intros file Hin <-. now apply filter_present_id.
Qed.

(** X8.  Acknowledged deletes compose: repeating a delete changes nothing
    more, and two deletes leave the same list in either order. *)
Theorem deletes_compose (s : Sys) first second response response' :
  env _ (fetch (deleteRequest first)) = Normal response ->
  200 <= status response <= 299 ->
  env _ (fetch (deleteRequest second)) = Normal response' ->
  200 <= status response' <= 299 ->
  files (ui (exec env (handleDelete first) (exec env (handleDelete first) s))) =
    files (ui (exec env (handleDelete first) s)) /\
  files (ui (exec env (handleDelete second) (exec env (handleDelete first) s))) =
    files (ui (exec env (handleDelete first) (exec env (handleDelete second) s))).
Proof.
  intros Hfirst Hok Hsecond Hok'.
  rewrite !(files_after_delete _ first response Hfirst Hok).
  rewrite !(files_after_delete _ second response' Hsecond Hok').
  rewrite !(files_after_delete _ first response Hfirst Hok).
  rewrite !list_filter_filter. split.
  - apply list_filter_iff. tauto.
  - apply list_filter_iff. tauto.
Qed.

End Deletes.

Lemma delete_removes_matching_records_witness :
  files (ui (exec backend_up (handleDelete "f9") page)) = [f1; f2] /\
  S (length (files (ui (exec backend_up (handleDelete "f1") page)))) = 2%nat.
Proof.
  split.
  - destruct (delete_removes_matching_records backend_up page "f9" (mkResponse 200))
      as (_ & Habsent & _); [reflexivity | simpl; lia | ].
    apply Habsent. apply (bool_decide_unpack _). vm_compute. exact I.
  - destruct (delete_removes_matching_records backend_up page "f1" (mkResponse 200))
      as (_ & _ & Hpresent); [reflexivity | simpl; lia | ].
    destruct Hpresent as [_ Hone].
    + apply (bool_decide_unpack _). vm_compute. exact I.
    + apply (Hone f1); [apply list_elem_of_here | reflexivity].
Defined.

Lemma deletes_compose_witness :
  files (ui (exec backend_up (handleDelete "f1") (exec backend_up (handleDelete "f1") page))) =
    files (ui (exec backend_up (handleDelete "f1") page)) /\
  files (ui (exec backend_up (handleDelete "f2") (exec backend_up (handleDelete "f1") page))) =
    files (ui (exec backend_up (handleDelete "f1") (exec backend_up (handleDelete "f2") page))).
Proof.
  apply (deletes_compose backend_up page "f1" "f2" (mkResponse 200) (mkResponse 200));
    [reflexivity | simpl; lia | reflexivity | simpl; lia].
Defined.

(** ** While a request is pending *)

(** What the page renders is the states at the awaited calls, then the
    state the handler settles in. *)
Lemma renders_suspensions {A} (env : Env) (m : Async A) (s : Sys) :
  renders env m s = suspensions env m s ++ [ui (exec env m s)].
Proof.
  unfold exec. revert s.
  induction m as [a | e | g k IH | T c k IH]; intros s; simpl; auto.
  destruct (awaited c); simpl; now rewrite IH.
Qed.









(** ** What the page shows *)

(** X11.  A failure can be invisible.  The banner is rendered on
    [errorMessage && ...], and the catch blocks store [error.message]
    whenever the thrown value is an [Error]: when a request rejects with
    an [Error] whose message is empty, the handler stores the empty
    string and the page renders no banner, for each of the four
    handlers. *)
Theorem empty_message_shows_no_banner (env : Env) (s : Sys) (localize : string -> string) :
  (env _ (fetch listRequest) = Abrupt (JsError "") ->
   errorMessage (ui (exec env fetchFiles s)) = Some "" /\
   errorBanner (render localize (ui (exec env fetchFiles s))) = None) /\
  (forall file,
     selectedFile (ui s) = Some file ->
     env _ (fetch (uploadRequest file (description (ui s)))) = Abrupt (JsError "") ->
     errorMessage (ui (exec env (handleUpload (ui s)) s)) = Some "" /\
     errorBanner (render localize (ui (exec env (handleUpload (ui s)) s))) = None) /\
  (forall file,
     env _ (fetch (downloadRequest file)) = Abrupt (JsError "") ->
     errorMessage (ui (exec env (handleDownload file) s)) = Some "" /\
     errorBanner (render localize (ui (exec env (handleDownload file) s))) = None) /\
  (forall fileId,
     env _ (fetch (deleteRequest fileId)) = Abrupt (JsError "") ->
     errorMessage (ui (exec env (handleDelete fileId) s)) = Some "" /\
     errorBanner (render localize (ui (exec env (handleDelete fileId) s))) = None).
Proof.
  assert (Hbanner : forall st, errorMessage st = Some "" ->
                               errorMessage st = Some "" /\
                               errorBanner (render localize st) = None).
  { intros st Hst. split; [exact Hst | ]. simpl. now rewrite Hst. }
  split; [ | split; [ | split]].
  - intros Hfetch. apply Hbanner.
    rewrite (fetchFiles_failed env s _ (list_rejected env _ Hfetch)). reflexivity.
  - intros file Hsome Hfetch. apply Hbanner.
    destruct (handleUpload_failed env s file _ Hsome
                (request_rejected env _ _ _ _ Hfetch)) as [Hui _].
    rewrite Hui. reflexivity.
  - intros file Hfetch. apply Hbanner.
    unfold exec, handleDownload. simpl. rewrite Hfetch. now replies env.
  - intros fileId Hfetch. apply Hbanner.
    rewrite (handleDelete_failed env s fileId _ (request_rejected env _ _ _ _ Hfetch)).
    reflexivity.
Qed.

Lemma empty_message_shows_no_banner_witness :
  errorMessage (ui (exec silent (handleDelete "f1") page)) = Some "" /\
  errorBanner (render iso_date (ui (exec silent (handleDelete "f1") page))) = None.
Proof.
  exact (proj2 (proj2 (proj2 (empty_message_shows_no_banner silent page iso_date)))
           "f1" eq_refl).
Defined.

(** X12.  Mounting the page.  The effect sends the listing once.  While
    that listing is pending the page shows the loading notice and a table
    body without rows, never the empty notice, and the refresh button is
    disabled.  If the listing fails the page ends with no rows, the empty
    notice, "0 B" as total size, "-" as last update, and the failure's
    message in [errorMessage]; if it is accepted, the page has a row per
    record. *)
Theorem mount_lists_once (env : Env) (localize : string -> string) :
  requests (trace (mounted env)) = [listRequest] /\
  (forall st, st ∈ suspensions env fetchFiles mounting ->
     loadingNotice (render localize st) = true /\
     listBody (render localize st) = Rows [] /\
     refreshDisabled (render localize st) = true) /\
  (forall message,
     list_fails env message ->
     let view := render localize (ui (mounted env)) in
     errorMessage (ui (mounted env)) = Some message /\
     fileCount view = 0%nat /\
     listBody view = EmptyNotice /\
     totalSizeLabel view = "0 B" /\
     lastUpdated view = "-" /\
     loadingNotice view = false) /\
  (forall response payload records,
     env _ (fetch listRequest) = Normal response ->
     200 <= status response <= 299 ->
     env _ (response_json response) = Normal payload ->
     payload = PayloadArray records \/ payload = PayloadWrapper records ->
     let view := render localize (ui (mounted env)) in
     fileCount view = length records /\
     loadingNotice view = false /\
     errorBanner view = None /\
     (records <> [] -> listBody view = Rows (renderRow localize (ui (mounted env)) <$> records))).
Proof.
  unfold mounted. split; [ | split; [ | split]].
  - destruct (fetchFiles_frame env mounting) as (_ & _ & _ & _ & _ & Hreq). exact Hreq.
  - intros st Hin. unfold fetchFiles, mounting in Hin. revert Hin.
    replies env; intros Hin;
      repeat (apply elem_of_cons in Hin as [-> | Hin]; [now repeat split | ]);
      now apply elem_of_nil in Hin.
  - intros message Hfail. cbv zeta.
    rewrite (fetchFiles_failed env mounting message Hfail). now repeat split.
  - intros response payload records Hfetch Hok Hjson Hshape. cbv zeta.
    rewrite (fetchFiles_accepted env mounting response payload records) by assumption.
    simpl. repeat split. intros Hne. destruct records; [contradiction | reflexivity].
Qed.

Lemma mount_lists_once_witness :
  (errorMessage (ui (mounted backend_down)) = Some "ファイル一覧の取得に失敗しました。" /\
   listBody (render iso_date (ui (mounted backend_down))) = EmptyNotice) /\
  fileCount (render iso_date (ui (mounted backend_up))) = 1%nat.
Proof.
  destruct (mount_lists_once backend_down iso_date) as (_ & _ & Hfailed & _).
  destruct (mount_lists_once backend_up iso_date) as (_ & _ & _ & Haccepted).
  split.
  - destruct (Hfailed "ファイル一覧の取得に失敗しました。") as (Herror & _ & Hbody & _).
    + apply list_status with (response := mkResponse 500); [reflexivity | simpl; lia].
    + exact (conj Herror Hbody).
  - apply (Haccepted (mkResponse 200) (PayloadWrapper [f3]) [f3]);
      [reflexivity | simpl; lia | reflexivity | right; reflexivity].
Defined.

(** X13.  Refreshing is idempotent on the page: against the same answers
    a second listing leaves every slot as the first one left it, whether
    the listing is accepted or fails. *)
Theorem refresh_twice_is_refresh_once (env : Env) (s : Sys) :
  ui (exec env fetchFiles (exec env fetchFiles s)) = ui (exec env fetchFiles s).
Proof.
  unfold exec, fetchFiles. now replies env.
Qed.

Lemma handleUpload_requests (env : Env) (s : Sys) file :
  selectedFile (ui s) = Some file ->
  exists rest,
    requests (trace (exec env (handleUpload (ui s)) s)) =
      requests (trace s) ++ uploadRequest file (description (ui s)) :: rest.
Proof.
  intros Hsome. unfold exec, handleUpload, fetchFiles, requests. rewrite Hsome.
  replies env; rewrite ?omap_app, <- ?app_assoc; simpl; rewrite ?app_nil_r; eauto.
Qed.

(** X14.  The file input and the submit.  A change event without a file
    (no list, or an empty one) clears the selection, so the submit that
    follows sends nothing and shows the validation message; a change
    event with files selects the first one, and the submit that follows
    sends that file. *)
Theorem submit_follows_file_input (env : Env) (s : Sys) :
  (forall chosenFiles,
     chosenFiles = None \/ chosenFiles = Some [] ->
     let s1 := exec env (onFileChange chosenFiles) s in
     let s2 := exec env (handleUpload (ui s1)) s1 in
     selectedFile (ui s1) = None /\
     requests (trace s2) = requests (trace s) /\
     errorMessage (ui s2) = Some "アップロードするファイルを選択してください。") /\
  (forall file others,
     let s1 := exec env (onFileChange (Some (file :: others))) s in
     let s2 := exec env (handleUpload (ui s1)) s1 in
     selectedFile (ui s1) = Some file /\
     exists rest,
       requests (trace s2) =
         requests (trace s) ++ uploadRequest file (description (ui s)) :: rest).
Proof.
  split.
  - intros chosenFiles Hnone s1 s2.
    assert (Hs1 : s1 = mkSys (setSelectedFile None (ui s)) (trace s)).
    { subst s1. destruct Hnone as [-> | ->]; reflexivity. }
    assert (Hsel : selectedFile (ui s1) = None) by now rewrite Hs1.
    subst s2. rewrite (handleUpload_rejected env s1 Hsel), Hs1. simpl.
    repeat split. unfold requests. rewrite omap_app. simpl. apply app_nil_r.
  - intros file others s1 s2.
    assert (Hs1 : s1 = mkSys (setSelectedFile (Some file) (ui s)) (trace s)) by reflexivity.
    split; [now rewrite Hs1 | ].
    assert (Hsel : selectedFile (ui s1) = Some file) by now rewrite Hs1.
    destruct (handleUpload_requests env s1 file Hsel) as [rest Hreq].
    exists rest. subst s2. rewrite Hreq, Hs1. reflexivity.
Qed.

Lemma submit_follows_file_input_witness :
  selectedFile (ui (exec backend_up (onFileChange (Some [])) page_selected)) = None /\
  requests (trace (exec backend_up
                     (handleUpload (ui (exec backend_up (onFileChange (Some [])) page_selected)))
                     (exec backend_up (onFileChange (Some [])) page_selected))) = [].
Proof.
  destruct (proj1 (submit_follows_file_input backend_up page_selected) (Some []))
    as (Hsel & Hreq & _); [right; reflexivity | ].
  exact (conj Hsel Hreq).
Defined.

(** ** More on [formatFileSize] *)

(** X15.  Below 1024 bytes the size is shown as it is: for every whole
    number of bytes from 1 to 1023 the result is that number with one
    zero decimal and the unit B. *)
Theorem formatFileSize_whole_bytes (n : Z) :
  1 <= n <= 1023 ->
  formatFileSize (number_of_Z n) = decimal n +:+ ".0 B".
Proof.
  intros Hn.
  assert (Hall : Forall (fun n => formatFileSize (number_of_Z n) = decimal n +:+ ".0 B")
                        (seqZ 1 1023)).
  { apply (bool_decide_unpack _). vm_compute. exact I. }
  rewrite Forall_forall in Hall. apply Hall. apply elem_of_seqZ. lia.
Qed.

Lemma formatFileSize_whole_bytes_witness : formatFileSize 512 = "512.0 B".
Proof. apply (formatFileSize_whole_bytes 512). lia. Defined.

(** X16.  At every power of two below 1024^5 the unit is the right one:
    for [0 <= j < 50] the index computed for [2^j] is [j / 10], and the
    result is [2^(j mod 10)] with one zero decimal and the unit at that
    index. *)
Theorem formatFileSize_powers_of_two (j : Z) :
  0 <= j < 50 ->
  unitIndex (number_of_Z (2 ^ j)) = Int (j / 10) /\
  formatFileSize (number_of_Z (2 ^ j)) =
    decimal (2 ^ (j mod 10)) +:+ ".0 " +:+ interpolate (units !! Z.to_nat (j / 10)).
Proof.
  intros Hj.
  assert (Hall : Forall (fun j =>
                   unitIndex (number_of_Z (2 ^ j)) = Int (j / 10) /\
                   formatFileSize (number_of_Z (2 ^ j)) =
                     decimal (2 ^ (j mod 10)) +:+ ".0 " +:+
                     interpolate (units !! Z.to_nat (j / 10)))
                 (seqZ 0 50)).
  { apply (bool_decide_unpack _). vm_compute. exact I. }
  rewrite Forall_forall in Hall. apply Hall. apply elem_of_seqZ. lia.
Qed.

Lemma formatFileSize_powers_of_two_witness :
  unitIndex 0x1p40 = Int 4 /\ formatFileSize 0x1p40 = "1.0 TB".
Proof. apply (formatFileSize_powers_of_two 40). lia. Defined.

(** X17.  A negative size, of any magnitude, is never given a unit: the
    logarithm is NaN, the division by [1024 ** NaN] is NaN, and the
    result is the text "NaN undefined". *)
Theorem formatFileSize_negative (sizeInBytes : float) :
  (sizeInBytes <? 0)%float = true ->
  formatFileSize sizeInBytes = "NaN undefined".
Proof.
  intros Hneg.
  assert (Hnonzero : (sizeInBytes =? 0)%float = false).
  { rewrite FloatAxioms.eqb_spec. rewrite FloatAxioms.ltb_spec in Hneg.
    change (Prim2SF 0) with (S754_zero false) in *.
    destruct (Prim2SF sizeInBytes) as [[] | [] | | [] m e]; cbv in Hneg |- *; congruence. }
  destruct (unitIndex_negative sizeInBytes Hneg) as [Hindex _].
  unfold formatFileSize. rewrite Hnonzero, Hindex. simpl pow1024.
  assert (Hnan : Prim2SF (sizeInBytes / nan) = S754_nan).
  { rewrite FloatAxioms.div_spec. change (Prim2SF nan) with S754_nan.
    destruct (Prim2SF sizeInBytes) as [[] | [] | | [] m e]; reflexivity. }
  unfold toFixed. rewrite Hnan. reflexivity.
Qed.

Lemma formatFileSize_negative_witness : formatFileSize (-1536) = "NaN undefined".
Proof. apply formatFileSize_negative. reflexivity. Defined.

(** X18.  The unit changes exactly at the powers of 1024 up to 1024^4:
    for [k] from 1 to 4, each of the 1023 whole sizes just below [1024^k]
    gets the index [k - 1], and each of the 1023 whole sizes from
    [1024^k] on gets the index [k]. *)
Theorem unit_boundaries_exact (k d : Z) :
  1 <= k <= 4 ->
  1 <= d <= 1023 ->
  unitIndex (number_of_Z (1024 ^ k - d)) = Int (k - 1) /\
  unitIndex (number_of_Z (1024 ^ k + d - 1)) = Int k.
Proof.
  intros Hk Hd.
  assert (Hall : Forall (fun k =>
                   Forall (fun d =>
                     unitIndex (number_of_Z (1024 ^ k - d)) = Int (k - 1) /\
                     unitIndex (number_of_Z (1024 ^ k + d - 1)) = Int k)
                   (seqZ 1 1023))
                 (seqZ 1 4)).
  { apply (bool_decide_unpack _). vm_compute. exact I. }
  rewrite Forall_forall in Hall.
  assert (Hin : k ∈ seqZ 1 4) by (apply elem_of_seqZ; lia).
  specialize (Hall k Hin). rewrite Forall_forall in Hall.
  apply Hall. apply elem_of_seqZ. lia.
Qed.

Lemma unit_boundaries_exact_witness :
  unitIndex 1048575 = Int 1 /\ unitIndex 1048576 = Int 2.
Proof. apply (unit_boundaries_exact 2 1); lia. Defined.
